(** * mobile-angular-ui.components.navbars

    A shallow embedding of [src/js/components/navbars.js]: the
    [navController] directive, the two [navbarAbsolute<Side>] directives
    and the twelve [<method><Nav>Nav] toggle directives, together with the
    statements about them that the specification makes.

    The DOM is modelled by the class attribute of every element, a finite
    set of class names; [addClass] and [removeClass] are the jqLite
    operations of that name.  The module-level variable [global], the
    navController instances it can point to and the [$destroy] listeners
    are the remaining components of the state.  A link function is a
    computation in a small state-and-exception monad, because a JavaScript
    exception does not undo the writes made before it. *)

From stdpp Require Import base strings gmap sets list.
From Stdlib Require Import Ascii.

Local Open Scope string_scope.

(** ** Identifiers of the objects the code holds references to *)

Abbreviation Elem := nat (only parsing).     (* a DOM element (jqLite wrapper) *)
Abbreviation CtrlRef := nat (only parsing).  (* a navController instance *)
Abbreviation ScopeId := nat (only parsing).  (* an Angular scope *)

(** ** The three literal arrays the module iterates over *)

(** [['top', 'bottom']] *)
Inductive Side := top | bottom.

(** [['Top', 'Bottom', 'Both']] *)
Inductive Nav := Top | Bottom | Both.

(** [['hide', 'show', 'slidein', 'slideout']] *)
Inductive Method := m_hide | m_show | m_slidein | m_slideout.

Definition side_name (side : Side) : string :=
  match side with top => "top" | bottom => "bottom" end.

Definition nav_name (nav : Nav) : string :=
  match nav with Top => "Top" | Bottom => "Bottom" | Both => "Both" end.

Definition method_name (method : Method) : string :=
  match method with
  | m_hide => "hide" | m_show => "show"
  | m_slidein => "slidein" | m_slideout => "slideout"
  end.

Definition all_sides : list Side := [top; bottom].
Definition all_navs : list Nav := [Top; Bottom; Both].
Definition all_methods : list Method := [m_hide; m_show; m_slidein; m_slideout].

#[global] Instance Side_eq_dec : EqDecision Side.
Proof. solve_decision. Defined.
#[global] Instance Nav_eq_dec : EqDecision Nav.
Proof. solve_decision. Defined.
#[global] Instance Method_eq_dec : EqDecision Method.
Proof. solve_decision. Defined.

(** ** The string primitives the module uses *)

Definition lower_ascii (a : ascii) : ascii :=
  let n := nat_of_ascii a in
  if (65 <=? n)%nat && (n <=? 90)%nat then ascii_of_nat (n + 32) else a.

Definition upper_ascii (a : ascii) : ascii :=
  let n := nat_of_ascii a in
  if (97 <=? n)%nat && (n <=? 122)%nat then ascii_of_nat (n - 32) else a.

(** [String.prototype.toLowerCase], on ASCII. *)
Fixpoint toLowerCase (s : string) : string :=
  match s with
  | EmptyString => EmptyString
  | String a r => String (lower_ascii a) (toLowerCase r)
  end.

(** [String.prototype.toUpperCase], on ASCII. *)
Fixpoint toUpperCase (s : string) : string :=
  match s with
  | EmptyString => EmptyString
  | String a r => String (upper_ascii a) (toUpperCase r)
  end.

(** [s.charAt(0)] *)
Definition charAt0 (s : string) : string :=
  match s with EmptyString => EmptyString | String a _ => String a EmptyString end.

(** [s.slice(1)] *)
Definition slice1 (s : string) : string :=
  match s with EmptyString => EmptyString | String _ r => r end.

(** ['has-navbar-' + side] *)
Definition has_navbar (side : Side) : string := "has-navbar-" +:+ side_name side.

(** ['navbarAbsolute' + side.charAt(0).toUpperCase() + side.slice(1)] *)
Definition navbar_directive_name (side : Side) : string :=
  "navbarAbsolute" +:+ toUpperCase (charAt0 (side_name side)) +:+ slice1 (side_name side).

(** [method + nav + "Nav"] *)
Definition toggle_directive_name (nav : Nav) (method : Method) : string :=
  method_name method +:+ nav_name nav +:+ "Nav".

(** ** Objects *)

(** The object built by [new (function() { this.hide = ...; ... })()] in
    the link function of a navbar directive.  Its four methods close over
    [side], [elem] and [$rootElement]; the record holds the captured
    variables. *)
Record SideCtrl := mkSideCtrl {
  sc_side : Side;
  sc_elem : Elem;
  sc_root : Elem
}.

(** The listener passed to [scope.$on('$destroy', ...)]; it closes over
    [$rootElement] and [side]. *)
Record DestroyListener := mkDestroyListener {
  dl_root : Elem;
  dl_side : Side
}.

(** ** The state *)

Record State := mkState {
  (** the class attribute of every element; an element without an entry
      has no class *)
  classes : gmap nat (gset string);
  (** [var global;] ([None] is [undefined]) *)
  global : option nat;
  (** the properties that [registerController] has set on each
      navController instance ([this[name] = ctrl]) *)
  controllers : gmap nat (gmap string SideCtrl);
  (** the [$destroy] listeners, in registration order *)
  listeners : list (nat * DestroyListener)
}.

Definition set_classes (f : gmap nat (gset string) → gmap nat (gset string)) (s : State) : State :=
  mkState (f (classes s)) (global s) (controllers s) (listeners s).

Definition set_global (g : option nat) (s : State) : State :=
  mkState (classes s) g (controllers s) (listeners s).

Definition set_controllers (f : gmap nat (gmap string SideCtrl) → gmap nat (gmap string SideCtrl))
    (s : State) : State :=
  mkState (classes s) (global s) (f (controllers s)) (listeners s).

Definition set_listeners (f : list (nat * DestroyListener) → list (nat * DestroyListener))
    (s : State) : State :=
  mkState (classes s) (global s) (controllers s) (f (listeners s)).

(** The classes of an element. *)
Definition classes_of (s : State) (e : Elem) : gset string :=
  default ∅ (classes s !! e).

(** [e.hasClass(c)] *)
Definition hasClass (s : State) (e : Elem) (c : string) : bool :=
  bool_decide (c ∈ classes_of s e).

(** The properties of a navController instance set so far. *)
Definition props_of (s : State) (c : CtrlRef) : gmap string SideCtrl :=
  default ∅ (controllers s !! c).

(** ** The monad of link functions *)

(** Reading the property [prop] of [undefined]. *)
Inductive JsError := TypeError (prop : string).

Inductive Outcome (A : Type) :=
  | Ok (a : A)
  | Throw (e : JsError).
Arguments Ok {A} a.
Arguments Throw {A} e.

Definition M (A : Type) : Type := State → Outcome A * State.

#[global] Instance M_ret : MRet M := fun A a s => (Ok a, s).

#[global] Instance M_bind : MBind M := fun A B k m s =>
  match m s with
  | (Ok a, s') => k a s'
  | (Throw e, s') => (Throw e, s')
  end.

Definition throw {A} (e : JsError) : M A := fun s => (Throw e, s).

Definition gets {A} (f : State → A) : M A := fun s => (Ok (f s), s).

Definition modify (f : State → State) : M unit := fun s => (Ok tt, f s).

(** The state and the outcome a computation ends with. *)
Definition exec {A} (m : M A) (s : State) : State := snd (m s).
Definition outcome {A} (m : M A) (s : State) : Outcome A := fst (m s).

Definition succeeds {A} (m : M A) (s : State) : Prop :=
  ∃ a, outcome m s = Ok a.

(** ** jqLite *)

(** [e.addClass(c)] *)
Definition addClass (e : Elem) (c : string) : M unit :=
  modify (fun s => set_classes (insert e (classes_of s e ∪ {[c]})) s).

(** [e.removeClass(c)] *)
Definition removeClass (e : Elem) (c : string) : M unit :=
  modify (fun s => set_classes (insert e (classes_of s e ∖ {[c]})) s).

(** [scope.$on('$destroy', listener)] *)
Definition on_destroy (scope : ScopeId) (l : DestroyListener) : M unit :=
  modify (set_listeners (fun ls => app ls [(scope, l)])).

(** ** The navController directive

    [this.registerController = function(name, ctrl) { this[name] = ctrl; }]
    called on the instance [this]. *)
Definition registerController (this : CtrlRef) (name : string) (ctrl : SideCtrl) : M unit :=
  modify (fun s => set_controllers (insert this (<[name := ctrl]> (props_of s this))) s).

(** [link: function(scope){}] *)
Definition navController_link (scope : ScopeId) : M unit := mret tt.

(** ** The side controller of a navbar *)

Definition hide (c : SideCtrl) : M unit :=
  removeClass (sc_root c) ("has-navbar-" +:+ side_name (sc_side c));;
  addClass (sc_elem c) "ng-hide".

Definition show (c : SideCtrl) : M unit :=
  removeClass (sc_elem c) "ng-hide";;
  addClass (sc_root c) ("has-navbar-" +:+ side_name (sc_side c)).

Definition slideout (c : SideCtrl) : M unit :=
  removeClass (sc_root c) ("has-navbar-" +:+ side_name (sc_side c));;
  addClass (sc_elem c) "ng-hide".

Definition slidein (c : SideCtrl) : M unit :=
  removeClass (sc_elem c) "ng-hide";;
  addClass (sc_root c) ("has-navbar-" +:+ side_name (sc_side c)).

(** [c[method]()] on a side controller [c]: the object has exactly the
    four methods. *)
Definition call (c : SideCtrl) (method : Method) : M unit :=
  match method with
  | m_hide => hide c
  | m_show => show c
  | m_slidein => slidein c
  | m_slideout => slideout c
  end.

(** [o[method]()] where [o] is the value of a property read: reading
    [method] of [undefined] throws. *)
Definition invoke (o : option SideCtrl) (method : Method) : M unit :=
  match o with
  | Some c => call c method
  | None => throw (TypeError (method_name method))
  end.

(** [this[name]] on a navController instance. *)
Definition get_prop (this : CtrlRef) (name : string) : M (option SideCtrl) :=
  gets (fun s => props_of s this !! name).

(** The object [global] refers to, for the access [global.prop]: reading
    a property of [undefined] throws. *)
Definition deref_global (prop : string) : M CtrlRef :=
  g ← gets global;
  match g with
  | Some this => mret this
  | None => throw (TypeError prop)
  end.

(** [global[name]] *)
Definition global_prop (name : string) : M (option SideCtrl) :=
  this ← deref_global name;
  get_prop this name.

(** ** The navbarAbsoluteTop and navbarAbsoluteBottom directives

    The link function of the directive for [side], with [$rootElement]
    injected:
    [link: function(scope, elem, attr, ctrl)] where [ctrl] is the required
    navController instance. *)
Definition navbarAbsolute_link (side : Side) (rootElement : Elem)
    (scope : ScopeId) (elem : Elem) (ctrl : CtrlRef) : M unit :=
  addClass rootElement ("has-navbar-" +:+ side_name side);;
  on_destroy scope (mkDestroyListener rootElement side);;
  g ← gets global;
  (if g is None then modify (set_global (Some ctrl)) else mret tt);;
  this ← deref_global "registerController";
  registerController this (side_name side) (mkSideCtrl side elem rootElement).

(** Running a [$destroy] listener:
    [$rootElement.removeClass('has-navbar-' + side)]. *)
Definition run_listener (l : DestroyListener) : M unit :=
  removeClass (dl_root l) ("has-navbar-" +:+ side_name (dl_side l)).

(** The listeners of [scope] among [ls], run in registration order. *)
Fixpoint run_listeners (scope : ScopeId) (ls : list (nat * DestroyListener)) : M unit :=
  match ls with
  | [] => mret tt
  | (sc, l) :: ls' =>
      (if decide (sc = scope) then run_listener l else mret tt);;
      run_listeners scope ls'
  end.

(** The [$destroy] event on [scope]: the framework runs the listeners of
    the scope and drops them with it. *)
Definition destroy (scope : ScopeId) : M unit :=
  ls ← gets listeners;
  run_listeners scope ls;;
  modify (set_listeners (filter (fun l => l.1 ≠ scope))).

(** ** The toggle directives

    The link function of the directive [method + nav + "Nav"]:
    [link: function(scope, elem, attr)]. *)
Definition toggle_link (nav : Nav) (method : Method)
    (scope : ScopeId) (elem : Elem) : M unit :=
  g ← gets global;
  if g is Some _ then
    if decide (nav_name nav = "Both") then
      b ← global_prop "bottom";
      invoke b method;;
      t ← global_prop "top";
      invoke t method
    else
      c ← global_prop (toLowerCase (nav_name nav));
      invoke c method
  else mret tt.

(** The twelve toggle directives, in the order the nested [forEach]
    registers them. *)
Definition toggle_directives : list (string * (ScopeId → Elem → M unit)) :=
  nav ← all_navs;
  method ← all_methods;
  [(toggle_directive_name nav method, toggle_link nav method)].

(** The two navbar directives. *)
Definition navbar_directives
    : list (string * (Elem → ScopeId → Elem → CtrlRef → M unit)) :=
  side ← all_sides;
  [(navbar_directive_name side, navbarAbsolute_link side)].

(** ** The page as a sequence of events

    The link functions run when Angular links an element carrying the
    directive, and the [$destroy] listeners when it destroys a scope.  An
    exception that a link function throws is reported by the framework and
    the writes made before it stay, so the next event starts from the
    state the previous one left. *)
Inductive Event :=
  | LinkNavbar (side : Side) (scope : ScopeId) (elem : Elem) (ctrl : CtrlRef)
  | LinkToggle (nav : Nav) (method : Method) (scope : ScopeId) (elem : Elem)
  | DestroyScope (scope : ScopeId).

Definition fire (rootElement : Elem) (ev : Event) : M unit :=
  match ev with
  | LinkNavbar side scope elem ctrl => navbarAbsolute_link side rootElement scope elem ctrl
  | LinkToggle nav method scope elem => toggle_link nav method scope elem
  | DestroyScope scope => destroy scope
  end.

Definition step (rootElement : Elem) (s : State) (ev : Event) : State :=
  exec (fire rootElement ev) s.

Definition run (rootElement : Elem) (evs : list Event) (s : State) : State :=
  foldl (step rootElement) s evs.

(** The state when the module has been loaded and nothing is linked yet:
    [var global;] is [undefined]; [markup] gives the classes written in
    the page. *)
Definition init (markup : gmap nat (gset string)) : State :=
  mkState markup None ∅ [].

Inductive reachable (rootElement : Elem) : State → Prop :=
  | reachable_init markup : reachable rootElement (init markup)
  | reachable_step s ev :
      reachable rootElement s → reachable rootElement (step rootElement s ev).

(** The instance [global] refers to once the link function of a navbar
    directive has run with the controller [ctrl]:
    [if (!global) global = ctrl;]. *)
Definition linked_global (ctrl : CtrlRef) (s : State) : nat :=
  default ctrl (global s).

(** ** The condition of a navbar

    What the two classes say about the navbar of a side controller:
    shown (no [ng-hide] on the navbar, [has-navbar-<side>] on the root),
    hidden (the converse), or neither of the two. *)
Inductive Condition := Visible | Hidden | Neither.

Definition condition (s : State) (c : SideCtrl) : Condition :=
  match hasClass s (sc_elem c) "ng-hide",
        hasClass s (sc_root c) ("has-navbar-" +:+ side_name (sc_side c)) with
  | false, true => Visible
  | true, false => Hidden
  | _, _ => Neither
  end.

(** The condition each method leaves the navbar in. *)
Definition condition_after (method : Method) : Condition :=
  match method with
  | m_show | m_slidein => Visible
  | m_hide | m_slideout => Hidden
  end.

(** Calling methods of one side controller one after the other. *)
Definition call_all (c : SideCtrl) (methods : list Method) (s : State) : State :=
  foldl (fun s method => exec (call c method) s) s methods.

Definition is_navbar_link (ev : Event) : bool :=
  match ev with
  | LinkNavbar _ _ _ _ => true
  | _ => false
  end.

(** Calling [method] on the side controllers that the instance [this]
    holds under the names of [sides], one after the other. *)
Fixpoint dispatch (this : CtrlRef) (sides : list Side) (method : Method) : M unit :=
  match sides with
  | [] => mret tt
  | side :: sides' =>
      c ← get_prop this (side_name side);
      invoke c method;;
      dispatch this sides' method
  end.

(** The navbars a toggle directive for [nav] addresses, in the order of
    the calls. *)
Definition targets (nav : Nav) : list Side :=
  match nav with
  | Top => [top]
  | Bottom => [bottom]
  | Both => [bottom; top]
  end.

(** The toggle directives of a single navbar: [Top] for [top], [Bottom]
    for [bottom]. *)
Definition nav_of (side : Side) : Nav :=
  match side with top => Top | bottom => Bottom end.

(** The event links a navbar directive for [side]. *)
Definition links_side (side : Side) (ev : Event) : bool :=
  match ev with
  | LinkNavbar side' _ _ _ => bool_decide (side' = side)
  | _ => false
  end.

(** What [registerController] has stored is well formed: only the
    instance [global] refers to holds properties, each one under the name
    of a side, and the controller under that name is one for that side
    and for the root element of the application. *)
Definition registrations_wf (rootElement : Elem) (s : State) : Prop :=
  ∀ this name c,
    props_of s this !! name = Some c →
    global s = Some this ∧ name = side_name (sc_side c) ∧ sc_root c = rootElement.

(** A navbar of [side] is registered on the instance [global] refers
    to. *)
Definition registered (side : Side) (s : State) : Prop :=
  ∃ g c, global s = Some g ∧ props_of s g !! side_name side = Some c.

(** The classes the module writes. *)
Definition module_classes : gset string :=
  {[ "ng-hide"; "has-navbar-top"; "has-navbar-bottom" ]}.






(** Both navbars are registered on the instance [global] refers to. *)
Definition both_registered (g : CtrlRef) (ct cb : SideCtrl) (s : State) : Prop :=
  global s = Some g ∧
  props_of s g !! "top" = Some ct ∧
  props_of s g !! "bottom" = Some cb.

(** Each of the two navbars is shown or hidden. *)
Definition settled (ct cb : SideCtrl) (s : State) : Prop :=
  condition s ct ≠ Neither ∧ condition s cb ≠ Neither.

(** ** The page of the module documentation

    [<div class="app">] with a top navbar, a bottom navbar and the body;
    each navbar carries [nav-controller], hence has a navController
    instance of its own. *)
Module Page.
Definition app : Elem := 0.
Definition navbar_top : Elem := 1.
Definition navbar_bottom : Elem := 2.
Definition body : Elem := 3.
Definition ctrl_top : CtrlRef := 10.
Definition ctrl_bottom : CtrlRef := 11.
Definition scope_top : ScopeId := 20.
Definition scope_bottom : ScopeId := 21.

Definition markup : gmap nat (gset string) :=
  {[ app := {[ "app" ]};
     navbar_top := {[ "navbar"; "navbar-app"; "navbar-absolute-top" ]};
     navbar_bottom := {[ "navbar"; "navbar-app"; "navbar-absolute-bottom" ]};
     body := {[ "app-body" ]} ]}.

(** Only the top navbar is linked. *)
Definition top_linked : State :=
  step app (init markup) (LinkNavbar top scope_top navbar_top ctrl_top).

(** Only the bottom navbar is linked. *)
Definition bottom_linked : State :=
  step app (init markup) (LinkNavbar bottom scope_bottom navbar_bottom ctrl_bottom).

(** Both navbars are linked, the top one first. *)
Definition linked : State :=
  step app top_linked (LinkNavbar bottom scope_bottom navbar_bottom ctrl_bottom).

Definition top_ctrl : SideCtrl := mkSideCtrl top navbar_top app.
Definition bottom_ctrl : SideCtrl := mkSideCtrl bottom navbar_bottom app.

(** Linking toggle directives one after the other. *)
Definition toggles (ds : list (Nav * Method)) : list Event :=
  (fun d => LinkToggle d.1 d.2 0 body) <$> ds.

End Page.

(** ** A page with one element for both navbars

    [<div class="navbar navbar-app navbar-absolute-top
    navbar-absolute-bottom" nav-controller>]: both navbar directives link
    on the element, with its scope and its navController instance. *)
Module Shared.
Definition app : Elem := 0.
Definition navbar : Elem := 1.
Definition body : Elem := 3.
Definition ctrl : CtrlRef := 10.
Definition scope : ScopeId := 20.

Definition markup : gmap nat (gset string) :=
  {[ app := {[ "app" ]};
     navbar := {[ "navbar"; "navbar-app"; "navbar-absolute-top";
                  "navbar-absolute-bottom" ]};
     body := {[ "app-body" ]} ]}.


End Shared.

(** * Basic facts *)

(** The names under which the module registers its directives. *)
Example navbar_directive_names :
  navbar_directives.*1 = ["navbarAbsoluteTop"; "navbarAbsoluteBottom"].
Proof. reflexivity. Qed.

Example toggle_directive_names :
  toggle_directives.*1 =
  ["hideTopNav"; "showTopNav"; "slideinTopNav"; "slideoutTopNav";
   "hideBottomNav"; "showBottomNav"; "slideinBottomNav"; "slideoutBottomNav";
   "hideBothNav"; "showBothNav"; "slideinBothNav"; "slideoutBothNav"].
Proof. reflexivity. Qed.

(** The second navbar registers on the controller of the first, not on
    its own. *)
Example linked_controllers :
  global Page.linked = Some Page.ctrl_top ∧
  props_of Page.linked Page.ctrl_top !! "top" = Some Page.top_ctrl ∧
  props_of Page.linked Page.ctrl_top !! "bottom" = Some Page.bottom_ctrl ∧
  controllers Page.linked !! Page.ctrl_bottom = None.
Proof. by split_and!. Qed.

(** An exception keeps the writes made before it: with the bottom navbar
    alone, [hideBothNav] hides it and then throws on [global.top]. *)
Example hideBothNav_bottom_only :
  let r := toggle_link Both m_hide 0 Page.body Page.bottom_linked in
  r.1 = Throw (TypeError "hide") ∧
  condition Page.bottom_linked Page.bottom_ctrl = Visible ∧
  condition r.2 Page.bottom_ctrl = Hidden.
Proof. by split_and!. Qed.

Lemma State_eq (s1 s2 : State) :
  classes s1 = classes s2 → global s1 = global s2 →
  controllers s1 = controllers s2 → listeners s1 = listeners s2 →
  s1 = s2.
Proof. destruct s1, s2; simpl; congruence. Qed.

Lemma ng_hide_not_has_navbar (side : Side) : "ng-hide" ≠ has_navbar side.
Proof. by destruct side. Qed.

Lemma has_navbar_inj (side side' : Side) :
  has_navbar side = has_navbar side' → side = side'.
Proof. by destruct side, side'. Qed.

(** ** addClass and removeClass *)

Section class_ops.
Implicit Types (s : State) (e k : nat) (c x : string).

Lemma classes_addClass e c s k :
  classes (exec (addClass e c) s) !! k =
  if decide (e = k) then Some (classes_of s e ∪ {[c]}) else classes s !! k.
Proof. cbn. apply lookup_insert. Qed.

Lemma classes_removeClass e c s k :
  classes (exec (removeClass e c) s) !! k =
  if decide (e = k) then Some (classes_of s e ∖ {[c]}) else classes s !! k.
Proof. cbn. apply lookup_insert. Qed.

Lemma classes_of_addClass e c s k :
  classes_of (exec (addClass e c) s) k =
  if decide (e = k) then classes_of s k ∪ {[c]} else classes_of s k.
Proof.
  unfold classes_of at 1. rewrite classes_addClass.
  by case_decide; subst.
Qed.

Lemma classes_of_removeClass e c s k :
  classes_of (exec (removeClass e c) s) k =
  if decide (e = k) then classes_of s k ∖ {[c]} else classes_of s k.
Proof.
  unfold classes_of at 1. rewrite classes_removeClass.
  by case_decide; subst.
Qed.

Lemma elem_of_addClass e c s k x :
  x ∈ classes_of (exec (addClass e c) s) k ↔
  (k = e ∧ x = c) ∨ x ∈ classes_of s k.
Proof.
  rewrite classes_of_addClass.
  case_decide; subst; rewrite ?elem_of_union, ?elem_of_singleton; intuition congruence.
Qed.

Lemma elem_of_removeClass e c s k x :
  x ∈ classes_of (exec (removeClass e c) s) k ↔
  x ∈ classes_of s k ∧ ¬ (k = e ∧ x = c).
Proof.
  rewrite classes_of_removeClass.
  case_decide; subst; rewrite ?elem_of_difference, ?elem_of_singleton; intuition congruence.
Qed.
End class_ops.

(** Reduces the lookup of an element's classes through a sequence of
    [addClass] and [removeClass] to a case analysis on the elements. *)
Ltac class_lookup :=
  repeat (rewrite ?classes_addClass, ?classes_removeClass,
            ?classes_of_addClass, ?classes_of_removeClass);
  repeat case_decide; subst; try done.

(** ** The four methods of a side controller *)

Section side_controller.
Variable c : SideCtrl.
Implicit Types (s : State) (k : nat) (x : string).

Lemma call_run method s : call c method s = (Ok tt, exec (call c method) s).
Proof. by destruct method. Qed.

Lemma exec_hide s :
  exec (hide c) s =
  exec (addClass (sc_elem c) "ng-hide")
    (exec (removeClass (sc_root c) (has_navbar (sc_side c))) s).
Proof. reflexivity. Qed.

Lemma exec_show s :
  exec (show c) s =
  exec (addClass (sc_root c) (has_navbar (sc_side c)))
    (exec (removeClass (sc_elem c) "ng-hide") s).
Proof. reflexivity. Qed.

(** Which classes an element carries after [hide] and after [show]. *)
Lemma elem_of_hide s k x :
  x ∈ classes_of (exec (hide c) s) k ↔
  (k = sc_elem c ∧ x = "ng-hide") ∨
  (x ∈ classes_of s k ∧ ¬ (k = sc_root c ∧ x = has_navbar (sc_side c))).
Proof. by rewrite exec_hide, elem_of_addClass, elem_of_removeClass. Qed.

Lemma elem_of_show s k x :
  x ∈ classes_of (exec (show c) s) k ↔
  (k = sc_root c ∧ x = has_navbar (sc_side c)) ∨
  (x ∈ classes_of s k ∧ ¬ (k = sc_elem c ∧ x = "ng-hide")).
Proof. by rewrite exec_show, elem_of_addClass, elem_of_removeClass. Qed.

(** The methods write class attributes only. *)
Lemma call_global method s : global (exec (call c method) s) = global s.
Proof. by destruct method. Qed.

Lemma call_controllers method s :
  controllers (exec (call c method) s) = controllers s.
Proof. by destruct method. Qed.

Lemma call_listeners method s :
  listeners (exec (call c method) s) = listeners s.
Proof. by destruct method. Qed.

Lemma call_props method s g :
  props_of (exec (call c method) s) g = props_of s g.
Proof. unfold props_of. by rewrite call_controllers. Qed.

(** [slidein] and [slideout] have the bodies of [show] and [hide]. *)
Lemma exec_call_slidein s : exec (call c m_slidein) s = exec (show c) s.
Proof. reflexivity. Qed.

Lemma exec_call_slideout s : exec (call c m_slideout) s = exec (hide c) s.
Proof. reflexivity. Qed.

Lemma exec_call_show s : exec (call c m_show) s = exec (show c) s.
Proof. reflexivity. Qed.

Lemma exec_call_hide s : exec (call c m_hide) s = exec (hide c) s.
Proof. reflexivity. Qed.

Lemma hide_hidden s :
  "ng-hide" ∈ classes_of (exec (hide c) s) (sc_elem c) ∧
  has_navbar (sc_side c) ∉ classes_of (exec (hide c) s) (sc_root c).
Proof.
  rewrite !elem_of_hide. split; [left; done|].
  intros [[_ E]|[_ E]]; [|apply E; done].
  by apply (ng_hide_not_has_navbar (sc_side c)).
Qed.

Lemma show_visible s :
  ("ng-hide" ∉ classes_of (exec (show c) s) (sc_elem c)) ∧
  has_navbar (sc_side c) ∈ classes_of (exec (show c) s) (sc_root c).
Proof.
  rewrite !elem_of_show. split; [|left; done].
  intros [[_ E]|[_ E]]; [|apply E; done].
  by apply (ng_hide_not_has_navbar (sc_side c)).
Qed.

Lemma hide_idem s : exec (hide c) (exec (hide c) s) = exec (hide c) s.
Proof.
  apply State_eq; try reflexivity.
  apply map_eq; intros k. rewrite !exec_hide.
  class_lookup; f_equal; apply set_eq; intros x; set_unfold; tauto.
Qed.

Lemma show_idem s : exec (show c) (exec (show c) s) = exec (show c) s.
Proof.
  apply State_eq; try reflexivity.
  apply map_eq; intros k. rewrite !exec_show.
  class_lookup; f_equal; apply set_eq; intros x; set_unfold; tauto.
Qed.
End side_controller.

(** ** The link function of a navbar directive *)

Section navbar_link.
Variables (side : Side) (rootElement scope elem ctrl : nat).
Implicit Types s : State.

Lemma navbarAbsolute_link_run s :
  navbarAbsolute_link side rootElement scope elem ctrl s =
  (Ok tt,
   mkState
     (<[rootElement := classes_of s rootElement ∪ {[has_navbar side]}]> (classes s))
     (Some (linked_global ctrl s))
     (<[linked_global ctrl s :=
          <[side_name side := mkSideCtrl side elem rootElement]>
            (props_of s (linked_global ctrl s))]> (controllers s))
     (app (listeners s) [(scope, mkDestroyListener rootElement side)])).
Proof. destruct s as [cl [g|] co li]; reflexivity. Qed.

Lemma navbarAbsolute_link_global s :
  global (exec (navbarAbsolute_link side rootElement scope elem ctrl) s) =
  Some (linked_global ctrl s).
Proof. unfold exec. by rewrite navbarAbsolute_link_run. Qed.

Lemma navbarAbsolute_link_registers s :
  props_of (exec (navbarAbsolute_link side rootElement scope elem ctrl) s)
    (linked_global ctrl s) !! side_name side =
  Some (mkSideCtrl side elem rootElement).
Proof.
  unfold exec. rewrite navbarAbsolute_link_run. unfold props_of; simpl.
  rewrite lookup_insert_eq; simpl. apply lookup_insert_eq.
Qed.

Lemma navbarAbsolute_link_controllers s :
  controllers (exec (navbarAbsolute_link side rootElement scope elem ctrl) s) =
  <[linked_global ctrl s :=
      <[side_name side := mkSideCtrl side elem rootElement]>
        (props_of s (linked_global ctrl s))]> (controllers s).
Proof. unfold exec. by rewrite navbarAbsolute_link_run. Qed.
End navbar_link.

(** ** The [$destroy] listeners *)

Lemma run_listeners_cons scope sc l ls s :
  run_listeners scope ((sc, l) :: ls) s =
  run_listeners scope ls (if decide (sc = scope) then exec (run_listener l) s else s).
Proof. simpl. unfold mbind, M_bind. by destruct (decide (sc = scope)). Qed.

Lemma run_listeners_run scope ls s :
  run_listeners scope ls s = (Ok tt, exec (run_listeners scope ls) s).
Proof.
  revert s. induction ls as [|[sc l] ls IH]; intros s; [done|].
  unfold exec. rewrite run_listeners_cons. by rewrite IH.
Qed.

Lemma run_listeners_frame scope ls s :
  global (exec (run_listeners scope ls) s) = global s ∧
  controllers (exec (run_listeners scope ls) s) = controllers s ∧
  listeners (exec (run_listeners scope ls) s) = listeners s.
Proof.
  revert s. induction ls as [|[sc l] ls IH]; intros s; [done|].
  assert (exec (run_listeners scope ((sc, l) :: ls)) s =
          exec (run_listeners scope ls)
            (if decide (sc = scope) then exec (run_listener l) s else s)) as ->.
  { unfold exec at 1 2. by rewrite run_listeners_cons. }
  destruct (IH (if decide (sc = scope) then exec (run_listener l) s else s))
    as (-> & -> & ->).
  by case_decide.
Qed.

Lemma destroy_run scope s :
  destroy scope s =
  (Ok tt,
   set_listeners (filter (fun l => l.1 ≠ scope))
     (exec (run_listeners scope (listeners s)) s)).
Proof.
  unfold destroy, mbind, M_bind, gets. by rewrite run_listeners_run.
Qed.

Lemma destroy_global scope s : global (exec (destroy scope) s) = global s.
Proof. unfold exec at 1. rewrite destroy_run. apply run_listeners_frame. Qed.

Lemma destroy_controllers scope s :
  controllers (exec (destroy scope) s) = controllers s.
Proof. unfold exec at 1. rewrite destroy_run. apply run_listeners_frame. Qed.

(** ** The link function of a toggle directive *)

Section toggle_link.
Variables (method : Method) (scope elem : nat).
Implicit Types (s : State) (g : nat).

Lemma toggle_link_undefined nav s :
  global s = None → toggle_link nav method scope elem s = (Ok tt, s).
Proof. intros E. unfold toggle_link, mbind, M_bind, gets. by rewrite E. Qed.

Lemma global_prop_run name s g :
  global s = Some g → global_prop name s = (Ok (props_of s g !! name), s).
Proof.
  intros E. unfold global_prop, deref_global, mbind, M_bind, gets.
  by rewrite E.
Qed.

(** With [global] defined the link function reads the properties of
    that one instance: a single one for Top and Bottom, [bottom] and
    then [top] for Both. *)
Lemma toggle_link_Top s g :
  global s = Some g →
  toggle_link Top method scope elem s = invoke (props_of s g !! "top") method s.
Proof.
  intros E. unfold toggle_link, mbind, M_bind, gets.
  rewrite E. case_decide as D; [discriminate D|].
  change (toLowerCase (nav_name Top)) with "top".
  by rewrite (global_prop_run _ _ _ E).
Qed.

Lemma toggle_link_Bottom s g :
  global s = Some g →
  toggle_link Bottom method scope elem s = invoke (props_of s g !! "bottom") method s.
Proof.
  intros E. unfold toggle_link, mbind, M_bind, gets.
  rewrite E. case_decide as D; [discriminate D|].
  change (toLowerCase (nav_name Bottom)) with "bottom".
  by rewrite (global_prop_run _ _ _ E).
Qed.

Lemma toggle_link_Both s g :
  global s = Some g →
  toggle_link Both method scope elem s =
  (invoke (props_of s g !! "bottom") method;;
   invoke (props_of s g !! "top") method) s.
Proof.
  intros E. unfold toggle_link, mbind, M_bind, gets.
  rewrite E. case_decide as D; [clear D|done].
  rewrite (global_prop_run _ _ _ E).
  destruct (props_of s g !! "bottom") as [cb|]; [|done]. simpl invoke.
  rewrite call_run.
  rewrite (global_prop_run "top" _ g) by (by rewrite call_global).
  by rewrite call_props.
Qed.
End toggle_link.

(** ** The condition of a navbar after a method *)

Lemma condition_Visible s c :
  condition s c = Visible ↔
  ("ng-hide" ∉ classes_of s (sc_elem c)) ∧
  has_navbar (sc_side c) ∈ classes_of s (sc_root c).
Proof.
  unfold condition, hasClass, has_navbar.
  repeat case_bool_decide; split; (done || tauto).
Qed.

Lemma condition_Hidden s c :
  condition s c = Hidden ↔
  "ng-hide" ∈ classes_of s (sc_elem c) ∧
  has_navbar (sc_side c) ∉ classes_of s (sc_root c).
Proof.
  unfold condition, hasClass, has_navbar.
  repeat case_bool_decide; split; (done || tauto).
Qed.

Lemma condition_call c method s :
  condition (exec (call c method) s) c = condition_after method.
Proof.
  destruct method; simpl condition_after;
    rewrite ?exec_call_slidein, ?exec_call_slideout, ?exec_call_show, ?exec_call_hide;
    first [apply condition_Hidden, hide_hidden | apply condition_Visible, show_visible].
Qed.

Lemma call_all_snoc c methods method s :
  call_all c (methods ++ [method]) s = exec (call c method) (call_all c methods s).
Proof. unfold call_all. by rewrite foldl_app. Qed.

(** A method writes two classes and no other. *)
Lemma call_frame c method s k x :
  (k, x) ≠ (sc_elem c, "ng-hide") →
  (k, x) ≠ (sc_root c, has_navbar (sc_side c)) →
  x ∈ classes_of (exec (call c method) s) k ↔ x ∈ classes_of s k.
Proof.
  intros H1 H2.
  assert (¬ (k = sc_elem c ∧ x = "ng-hide")) by (intros [-> ->]; done).
  assert (¬ (k = sc_root c ∧ x = has_navbar (sc_side c))) by (intros [-> ->]; done).
  destruct method;
    rewrite ?exec_call_slidein, ?exec_call_slideout, ?exec_call_show, ?exec_call_hide,
      ?elem_of_hide, ?elem_of_show;
    tauto.
Qed.

(** A method of one navbar leaves the condition of a navbar on another
    element and another side as it was. *)
Lemma condition_call_other c c' method s :
  sc_elem c ≠ sc_elem c' → sc_side c ≠ sc_side c' →
  condition (exec (call c method) s) c' = condition s c'.
Proof.
  intros He Hs.
  assert (Hn : has_navbar (sc_side c) ≠ has_navbar (sc_side c'))
    by (intros E; by apply Hs, has_navbar_inj).
  pose proof (ng_hide_not_has_navbar (sc_side c)) as N1.
  pose proof (ng_hide_not_has_navbar (sc_side c')) as N2.
  unfold condition, hasClass. fold (has_navbar (sc_side c')).
  assert (F1 : "ng-hide" ∈ classes_of (exec (call c method) s) (sc_elem c') ↔
               "ng-hide" ∈ classes_of s (sc_elem c'))
    by (apply call_frame; congruence).
  assert (F2 : has_navbar (sc_side c') ∈ classes_of (exec (call c method) s) (sc_root c') ↔
               has_navbar (sc_side c') ∈ classes_of s (sc_root c'))
    by (apply call_frame; congruence).
  by rewrite (bool_decide_ext _ _ F1), (bool_decide_ext _ _ F2).
Qed.

(** ** Toggle directives *)

Lemma invoke_frame o method s :
  global (exec (invoke o method) s) = global s ∧
  controllers (exec (invoke o method) s) = controllers s.
Proof. destruct o as [c|]; [|done]. by destruct method. Qed.

Lemma invoke_registered c method s :
  invoke (Some c) method s = (Ok tt, exec (call c method) s).
Proof. apply call_run. Qed.

Lemma toggle_link_dispatch nav method scope elem s g :
  global s = Some g →
  toggle_link nav method scope elem s = dispatch g (targets nav) method s.
Proof.
  intros E. destruct nav; simpl targets; simpl dispatch.
  - rewrite (toggle_link_Top _ _ _ _ _ E). unfold mbind, M_bind, get_prop, gets, mret, M_ret.
    simpl side_name. by destruct (invoke _ _ _) as [[[]|]].
  - rewrite (toggle_link_Bottom _ _ _ _ _ E). unfold mbind, M_bind, get_prop, gets, mret, M_ret.
    simpl side_name. by destruct (invoke _ _ _) as [[[]|]].
  - rewrite (toggle_link_Both _ _ _ _ _ E). unfold mbind, M_bind, get_prop, gets, mret, M_ret.
    simpl side_name.
    destruct (props_of s g !! "bottom") as [cb|]; [|done].
    rewrite invoke_registered, call_props.
    by destruct (invoke _ _ _) as [[[]|]].
Qed.

Lemma dispatch_frame g sides method s :
  global (exec (dispatch g sides method) s) = global s ∧
  controllers (exec (dispatch g sides method) s) = controllers s.
Proof.
  revert s. induction sides as [|side sides IH]; intros s; [done|].
  unfold exec. simpl dispatch. unfold mbind, M_bind, get_prop, gets.
  destruct (invoke_frame (props_of s g !! side_name side) method s) as [E1 E2].
  unfold exec in E1, E2.
  destruct (invoke _ _ s) as [[[]|e] s1]; simpl in *; [|done].
  destruct (IH s1) as [E3 E4]. unfold exec in E3, E4. by rewrite E3, E4.
Qed.

Lemma toggle_link_frame nav method scope elem s :
  global (exec (toggle_link nav method scope elem) s) = global s ∧
  controllers (exec (toggle_link nav method scope elem) s) = controllers s.
Proof.
  destruct (global s) as [g|] eqn:E.
  - unfold exec. rewrite (toggle_link_dispatch _ _ _ _ _ _ E).
    rewrite <- E. apply dispatch_frame.
  - unfold exec. by rewrite toggle_link_undefined.
Qed.

Lemma elem_of_toggle_directives d :
  d ∈ toggle_directives ↔
  ∃ nav method, d = (toggle_directive_name nav method, toggle_link nav method).
Proof.
  unfold toggle_directives. split.
  - intros (nav & H & _)%list_elem_of_bind.
    apply list_elem_of_bind in H as (method & H & _).
    apply list_elem_of_singleton in H. eauto.
  - intros (nav & method & ->).
    apply list_elem_of_bind. exists nav. split; [|destruct nav; set_solver].
    apply list_elem_of_bind. exists method. split; [set_solver|].
    destruct method; set_solver.
Qed.

Lemma dispatch_registered g sides method s :
  (∀ side, side ∈ sides → is_Some (props_of s g !! side_name side)) →
  outcome (dispatch g sides method) s = Ok tt.
Proof.
  revert s. induction sides as [|side sides IH]; intros s H; [done|].
  destruct (H side) as [c Hc]; [by left|].
  unfold outcome. simpl dispatch. unfold mbind, M_bind, get_prop, gets.
  rewrite Hc, invoke_registered.
  apply IH. intros side' Hin. rewrite call_props. apply H. by right.
Qed.

(** ** The variable [global] along the events of a page *)

Section events.
Variable rootElement : nat.
Implicit Types (s : State) (ev : Event) (evs : list Event).

Lemma step_global_defined s ev g :
  global s = Some g → global (step rootElement s ev) = Some g.
Proof.
  intros E. destruct ev as [side scope elem ctrl|nav method scope elem|scope];
    unfold step, fire.
  - rewrite navbarAbsolute_link_global. unfold linked_global. by rewrite E.
  - by rewrite (proj1 (toggle_link_frame _ _ _ _ _)).
  - by rewrite destroy_global.
Qed.

Lemma step_global_undefined s ev :
  is_navbar_link ev = false → global s = None →
  global (step rootElement s ev) = None.
Proof.
  intros N E. destruct ev as [side scope elem ctrl|nav method scope elem|scope];
    [done|..]; unfold step, fire.
  - by rewrite (proj1 (toggle_link_frame _ _ _ _ _)).
  - by rewrite destroy_global.
Qed.

Lemma step_controllers s ev :
  is_navbar_link ev = false →
  controllers (step rootElement s ev) = controllers s.
Proof.
  intros N. destruct ev as [side scope elem ctrl|nav method scope elem|scope];
    [done|..]; unfold step, fire.
  - by rewrite (proj2 (toggle_link_frame _ _ _ _ _)).
  - by rewrite destroy_controllers.
Qed.

(** Every registration goes to the instance [global] refers to. *)
Lemma step_controllers_dom s ev g :
  global s = Some g → dom (controllers s) = {[g]} →
  dom (controllers (step rootElement s ev)) = {[g]}.
Proof.
  intros E D. destruct (is_navbar_link ev) eqn:N.
  - destruct ev as [side scope elem ctrl| |]; try done. unfold step, fire.
    rewrite navbarAbsolute_link_controllers, dom_insert_L, D.
    unfold linked_global. rewrite E. simpl. apply (idemp_L (∪)).
  - by rewrite step_controllers.
Qed.

Lemma step_first_link s side scope elem ctrl :
  global s = None → controllers s = ∅ →
  global (step rootElement s (LinkNavbar side scope elem ctrl)) = Some ctrl ∧
  dom (controllers (step rootElement s (LinkNavbar side scope elem ctrl))) = {[ctrl]}.
Proof.
  intros E C. unfold step, fire.
  rewrite navbarAbsolute_link_global, navbarAbsolute_link_controllers.
  unfold linked_global. rewrite E, C. simpl.
  split; [done|]. rewrite dom_insert_L, dom_empty_L. apply (right_id_L ∅ (∪)).
Qed.

Lemma run_app evs1 evs2 s :
  run rootElement (evs1 ++ evs2) s = run rootElement evs2 (run rootElement evs1 s).
Proof. unfold run. apply foldl_app. Qed.

Lemma run_cons ev evs s :
  run rootElement (ev :: evs) s = run rootElement evs (step rootElement s ev).
Proof. reflexivity. Qed.

Lemma run_global_undefined evs s :
  Forall (λ ev, is_navbar_link ev = false) evs →
  global s = None → controllers s = ∅ →
  global (run rootElement evs s) = None ∧ controllers (run rootElement evs s) = ∅.
Proof.
  intros F. revert s. induction F as [|ev evs N F IH]; intros s E C; [done|].
  rewrite run_cons. apply IH.
  - by apply step_global_undefined.
  - by rewrite step_controllers.
Qed.

Lemma run_global_defined evs s g :
  global s = Some g → dom (controllers s) = {[g]} →
  global (run rootElement evs s) = Some g ∧
  dom (controllers (run rootElement evs s)) = {[g]}.
Proof.
  revert s. induction evs as [|ev evs IH]; intros s E D; [done|].
  rewrite run_cons. apply IH.
  - by apply step_global_defined.
  - by apply step_controllers_dom.
Qed.

End events.

(** ** The conditions of the navbars *)

Lemma condition_after_settled method : condition_after method ≠ Neither.
Proof. by destruct method. Qed.

Lemma call_all_settled c methods s :
  methods ≠ [] → condition (call_all c methods s) c ≠ Neither.
Proof.
  destruct methods as [|method methods _] using rev_ind; [done|]. intros _.
  rewrite call_all_snoc, condition_call. apply condition_after_settled.
Qed.

Section two_navbars.
Variables (g : nat) (ct cb : SideCtrl).
Hypothesis side_ct : sc_side ct = top.
Hypothesis side_cb : sc_side cb = bottom.
Hypothesis elems : sc_elem ct ≠ sc_elem cb.

Lemma toggle_link_registered nav method scope elem s :
  both_registered g ct cb s →
  exec (toggle_link nav method scope elem) s =
  match nav with
  | Top => exec (call ct method) s
  | Bottom => exec (call cb method) s
  | Both => exec (call ct method) (exec (call cb method) s)
  end.
Proof.
  intros (E & Ht & Hb). unfold exec at 1. destruct nav.
  - by rewrite (toggle_link_Top _ _ _ _ _ E), Ht, invoke_registered.
  - by rewrite (toggle_link_Bottom _ _ _ _ _ E), Hb, invoke_registered.
  - rewrite (toggle_link_Both _ _ _ _ _ E), Ht, Hb.
    unfold mbind, M_bind. by rewrite !invoke_registered.
Qed.

Lemma toggle_link_both_registered nav method scope elem s :
  both_registered g ct cb s →
  both_registered g ct cb (exec (toggle_link nav method scope elem) s).
Proof.
  intros (E & Ht & Hb).
  destruct (toggle_link_frame nav method scope elem s) as [F1 F2].
  unfold both_registered, props_of. by rewrite F1, F2.
Qed.

Lemma toggle_link_settled nav method scope elem s :
  both_registered g ct cb s → settled ct cb s →
  settled ct cb (exec (toggle_link nav method scope elem) s).
Proof.
  intros R [St Sb]. rewrite (toggle_link_registered _ _ _ _ _ R).
  assert (sc_side ct ≠ sc_side cb) by (by rewrite side_ct, side_cb).
  destruct nav; split.
  - rewrite condition_call. apply condition_after_settled.
  - by rewrite condition_call_other.
  - by rewrite condition_call_other.
  - rewrite condition_call. apply condition_after_settled.
  - rewrite condition_call. apply condition_after_settled.
  - rewrite condition_call_other, condition_call by done.
    apply condition_after_settled.
Qed.

Lemma toggles_settled rootElement scope elem (ds : list (Nav * Method)) s :
  both_registered g ct cb s → settled ct cb s →
  settled ct cb
    (run rootElement ((fun d => LinkToggle d.1 d.2 scope elem) <$> ds) s).
Proof.
  revert s. induction ds as [|[nav method] ds IH]; intros s R St; [done|].
  rewrite fmap_cons, run_cons. apply IH.
  - by apply toggle_link_both_registered.
  - by apply toggle_link_settled.
Qed.
End two_navbars.

(** * The statements of the specification *)

(** ** Showing and hiding a navbar *)

(** C1. For each side, the controller that the navbar directive registers
    on [global] under the name of the side has a [show] that takes
    [ng-hide] off the navbar element and puts [has-navbar-<side>] on the
    root element, and a [hide] that puts [ng-hide] on the navbar element
    and takes [has-navbar-<side>] off the root element.  Both always
    return, write no other class of any element, and leave [global], the
    registered controllers and the listeners as they are. *)
Theorem C1_show_hide (side : Side) (rootElement scope elem ctrl : nat) (s : State) :
  let s1 := exec (navbarAbsolute_link side rootElement scope elem ctrl) s in
  ∃ g c,
    global s1 = Some g ∧
    props_of s1 g !! side_name side = Some c ∧
    (∀ s', let s'' := exec (show c) s' in
       outcome (show c) s' = Ok tt ∧
       ("ng-hide" ∉ classes_of s'' elem) ∧
       has_navbar side ∈ classes_of s'' rootElement ∧
       (∀ e x, (e, x) ≠ (elem, "ng-hide") → (e, x) ≠ (rootElement, has_navbar side) →
               x ∈ classes_of s'' e ↔ x ∈ classes_of s' e) ∧
       global s'' = global s' ∧ controllers s'' = controllers s' ∧
       listeners s'' = listeners s') ∧
    (∀ s', let s'' := exec (hide c) s' in
       outcome (hide c) s' = Ok tt ∧
       "ng-hide" ∈ classes_of s'' elem ∧
       (has_navbar side ∉ classes_of s'' rootElement) ∧
       (∀ e x, (e, x) ≠ (elem, "ng-hide") → (e, x) ≠ (rootElement, has_navbar side) →
               x ∈ classes_of s'' e ↔ x ∈ classes_of s' e) ∧
       global s'' = global s' ∧ controllers s'' = controllers s' ∧
       listeners s'' = listeners s').
Proof.
  intros s1. exists (linked_global ctrl s), (mkSideCtrl side elem rootElement).
  split; [apply navbarAbsolute_link_global|].
  split; [apply navbarAbsolute_link_registers|].
  set (c := mkSideCtrl side elem rootElement).
  split; intros s' s''.
  - destruct (show_visible c s') as [V1 V2].
    split_and!; try done.
    intros e x H1 H2. apply (call_frame c m_show s' e x H1 H2).
  - destruct (hide_hidden c s') as [V1 V2].
    split_and!; try done.
    intros e x H1 H2. apply (call_frame c m_hide s' e x H1 H2).
Qed.

(** C2. For each side, after any of the four methods of the side
    controller the navbar element carries [ng-hide] exactly when the root
    element does not carry [has-navbar-<side>]. *)
Theorem C2_one_condition (side : Side) (rootElement elem : nat)
    (method : Method) (s : State) :
  let s' := exec (call (mkSideCtrl side elem rootElement) method) s in
  "ng-hide" ∈ classes_of s' elem ↔ has_navbar side ∉ classes_of s' rootElement.
Proof.
  intros s'. set (c := mkSideCtrl side elem rootElement).
  pose proof (condition_call c method s) as C. fold s' in C.
  destruct method; simpl in C.
  - apply condition_Hidden in C. simpl in C. tauto.
  - apply condition_Visible in C. simpl in C. tauto.
  - apply condition_Visible in C. simpl in C. tauto.
  - apply condition_Hidden in C. simpl in C. tauto.
Qed.

(** ** Failure of a toggle directive *)

(** C3 fails on the page with the top navbar only: [global] is defined,
    [global.top] is registered and [global.bottom] is not, and the link
    function of [hideBothNav] and of [hideBottomNav] throws. *)
Lemma C3_counterexample :
  reachable Page.app Page.top_linked ∧
  global Page.top_linked = Some Page.ctrl_top ∧
  props_of Page.top_linked Page.ctrl_top !! "bottom" = None ∧
  outcome (toggle_link Both m_hide 0 Page.body) Page.top_linked = Throw (TypeError "hide") ∧
  outcome (toggle_link Bottom m_hide 0 Page.body) Page.top_linked = Throw (TypeError "hide") ∧
  ¬ succeeds (toggle_link Both m_hide 0 Page.body) Page.top_linked.
Proof.
  split_and!; try reflexivity.
  - apply reachable_step, reachable_init.
  - intros [a H]. vm_compute in H. discriminate H.
Qed.

(** C3, amended. The guard on [global] is the only check of the link
    function of a toggle directive.  When [global] is undefined, or is
    defined and holds a controller for every navbar the directive
    addresses (bottom and top for Both, the one named otherwise), the
    link function returns without an exception. *)
Theorem C3_dispatch_returns (nav : Nav) (method : Method) (scope elem : nat)
    (s : State) :
  (∀ g side, global s = Some g → side ∈ targets nav →
             is_Some (props_of s g !! side_name side)) →
  outcome (toggle_link nav method scope elem) s = Ok tt.
Proof.
  intros H. destruct (global s) as [g|] eqn:E.
  - unfold outcome. rewrite (toggle_link_dispatch _ _ _ _ _ _ E).
    apply dispatch_registered. intros side Hin. by apply H.
  - unfold outcome. by rewrite toggle_link_undefined.
Qed.

Lemma C3_witness :
  (∀ g side, global Page.linked = Some g → side ∈ targets Both →
             is_Some (props_of Page.linked g !! side_name side)) ∧
  outcome (toggle_link Both m_hide 0 Page.body) Page.linked = Ok tt.
Proof.
  assert (∀ g side, global Page.linked = Some g → side ∈ targets Both →
                    is_Some (props_of Page.linked g !! side_name side)) as H.
  { intros g side [= <-] _. destruct side; vm_compute; eauto. }
  split; [exact H|].
  exact (C3_dispatch_returns Both m_hide 0 Page.body Page.linked H).
Defined.

(** ** The animated variants *)

(** C4. On every state [slidein] returns what [show] returns and
    [slideout] what [hide] returns, outcome and state alike. *)
Theorem C4_slide_is_plain (c : SideCtrl) (s : State) :
  slidein c s = show c s ∧ slideout c s = hide c s.
Proof. split; reflexivity. Qed.

(** A method leaves the navbar of its own controller shown or hidden,
    and on the page of the documentation, where the navbars are two
    elements, with no scope destroyed, the toggle directives leave both
    navbars shown or hidden. *)
Lemma own_navbar_settled :
  (∀ c methods s, methods ≠ [] → condition (call_all c methods s) c ≠ Neither) ∧
  (∀ ds, settled Page.top_ctrl Page.bottom_ctrl
           (run Page.app (Page.toggles ds) Page.linked)).
Proof.
  split.
  - intros c methods s. apply call_all_settled.
  - intros ds.
    apply (toggles_settled Page.ctrl_top Page.top_ctrl Page.bottom_ctrl
             eq_refl eq_refl ltac:(done) Page.app 0 Page.body ds Page.linked).
    + by split_and!.
    + by split.
Qed.





(** ** The shared controller *)

(** C6. On a page where [ctrl] is the controller of the first navbar
    directive that links, in every later state [global] refers to [ctrl],
    whatever directives have linked since, navbar directives with other
    controllers included; [ctrl] is the only instance that holds
    registered side controllers; and the link function of each of the
    twelve toggle directives is the dispatch of its method on the
    properties of [ctrl]. *)
Theorem C6_one_global (rootElement : nat) (markup : gmap nat (gset string))
    (before after : list Event) (side : Side) (scope elem ctrl : nat) :
  Forall (λ ev, is_navbar_link ev = false) before →
  let s := run rootElement (before ++ LinkNavbar side scope elem ctrl :: after)
             (init markup) in
  global (run rootElement before (init markup)) = None ∧
  global s = Some ctrl ∧
  dom (controllers s) = {[ctrl]} ∧
  ∀ d, d ∈ toggle_directives →
    ∃ nav method,
      d.1 = toggle_directive_name nav method ∧
      ∀ scope' elem',
        d.2 scope' elem' s = dispatch ctrl (targets nav) method s ∧
        global (exec (d.2 scope' elem') s) = Some ctrl.
Proof.
  intros F s.
  destruct (run_global_undefined rootElement before (init markup) F) as [E0 C0];
    [done..|].
  destruct (step_first_link rootElement _ side scope elem ctrl E0 C0) as [E1 D1].
  destruct (run_global_defined rootElement after _ ctrl E1 D1) as [E D].
  assert (Hs : s = run rootElement after
                 (step rootElement (run rootElement before (init markup))
                    (LinkNavbar side scope elem ctrl)))
    by (unfold s; by rewrite run_app, run_cons).
  rewrite Hs. split_and!; try done.
  intros d (nav & method & ->)%elem_of_toggle_directives.
  exists nav, method. split; [done|]. intros scope' elem'. simpl. split.
  - by apply toggle_link_dispatch.
  - by rewrite (proj1 (toggle_link_frame _ _ _ _ _)).
Qed.

Lemma C6_witness :
  let s := run Page.app
             ([LinkToggle Both m_hide 0 Page.body] ++
              LinkNavbar top Page.scope_top Page.navbar_top Page.ctrl_top ::
              [LinkNavbar bottom Page.scope_bottom Page.navbar_bottom Page.ctrl_bottom;
               LinkToggle Both m_slideout 0 Page.body])
             (init Page.markup) in
  Forall (λ ev, is_navbar_link ev = false) [LinkToggle Both m_hide 0 Page.body] ∧
  global s = Some Page.ctrl_top ∧ dom (controllers s) = {[Page.ctrl_top]}.
Proof.
  assert (F : Forall (λ ev, is_navbar_link ev = false) [LinkToggle Both m_hide 0 Page.body])
    by (repeat constructor).
  split; [exact F|].
  pose proof (C6_one_global Page.app Page.markup
                [LinkToggle Both m_hide 0 Page.body]
                [LinkNavbar bottom Page.scope_bottom Page.navbar_bottom Page.ctrl_bottom;
                 LinkToggle Both m_slideout 0 Page.body]
                top Page.scope_top Page.navbar_top Page.ctrl_top F) as (_ & E & D & _).
  split; [exact E|exact D].
Defined.

(** C7. With [global] defined, the link function of a Both directive
    calls the method on [global.bottom] and then on [global.top], and the
    link function of a Top or Bottom directive calls it on [global.top]
    or [global.bottom] alone; when the navbars are registered, the state
    left is the one the method of the bottom controller followed by the
    method of the top controller leaves, or the one the method of the
    single controller leaves. *)
Theorem C7_both_bottom_then_top (method : Method) (scope elem : nat)
    (s : State) (g : nat) :
  global s = Some g →
  toggle_link Both method scope elem s =
    (invoke (props_of s g !! "bottom") method;;
     invoke (props_of s g !! "top") method) s ∧
  toggle_link Top method scope elem s = invoke (props_of s g !! "top") method s ∧
  toggle_link Bottom method scope elem s = invoke (props_of s g !! "bottom") method s ∧
  (∀ cb ct,
     props_of s g !! "bottom" = Some cb → props_of s g !! "top" = Some ct →
     toggle_link Both method scope elem s =
       (Ok tt, exec (call ct method) (exec (call cb method) s)) ∧
     toggle_link Top method scope elem s = (Ok tt, exec (call ct method) s) ∧
     toggle_link Bottom method scope elem s = (Ok tt, exec (call cb method) s)).
Proof.
  intros E. split_and!.
  - by apply toggle_link_Both.
  - by apply toggle_link_Top.
  - by apply toggle_link_Bottom.
  - intros cb ct Hb Ht. split_and!.
    + rewrite (toggle_link_Both _ _ _ _ _ E), Hb, Ht.
      unfold mbind, M_bind. by rewrite !invoke_registered.
    + by rewrite (toggle_link_Top _ _ _ _ _ E), Ht, invoke_registered.
    + by rewrite (toggle_link_Bottom _ _ _ _ _ E), Hb, invoke_registered.
Qed.

Lemma C7_witness :
  global Page.linked = Some Page.ctrl_top ∧
  toggle_link Both m_hide 0 Page.body Page.linked =
    (Ok tt, exec (call Page.top_ctrl m_hide) (exec (call Page.bottom_ctrl m_hide) Page.linked)).
Proof.
  split; [reflexivity|].
  apply (C7_both_bottom_then_top m_hide 0 Page.body Page.linked Page.ctrl_top);
    reflexivity.
Defined.

(** C8. With [global] undefined the link function of every toggle
    directive returns and leaves the whole state as it is. *)
Theorem C8_undefined_noop (nav : Nav) (method : Method) (scope elem : nat)
    (s : State) :
  global s = None →
  toggle_link nav method scope elem s = (Ok tt, s).
Proof. apply toggle_link_undefined. Qed.

Lemma C8_witness :
  global (init Page.markup) = None ∧
  toggle_link Both m_slideout 0 Page.body (init Page.markup) = (Ok tt, init Page.markup).
Proof.
  split; [reflexivity|].
  apply (C8_undefined_noop Both m_slideout 0 Page.body (init Page.markup)).
  reflexivity.
Defined.

(** ** Idempotence *)

(** C9. Each of the four methods is idempotent: called twice in a row it
    leaves the state it leaves when called once. *)
Theorem C9_idempotent (c : SideCtrl) (method : Method) (s : State) :
  exec (call c method) (exec (call c method) s) = exec (call c method) s.
Proof.
  destruct method;
    rewrite ?exec_call_slidein, ?exec_call_slideout, ?exec_call_show, ?exec_call_hide;
    auto using hide_idem, show_idem.
Qed.

(** * Further properties of the module *)

(** ** How the methods of side controllers compose *)

Lemma call_hide_or_show c method s :
  exec (call c method) s =
  match condition_after method with
  | Hidden => exec (hide c) s
  | _ => exec (show c) s
  end.
Proof. by destruct method. Qed.

(** Of two methods of one side controller called one after the other,
    the second decides. *)
Lemma call_absorb (c : SideCtrl) (m1 m2 : Method) (s : State) :
  exec (call c m2) (exec (call c m1) s) = exec (call c m2) s.
Proof.
  rewrite !call_hide_or_show.
  apply State_eq; [|by destruct m1, m2..].
  apply map_eq; intros k.
  destruct (condition_after m1), (condition_after m2);
    rewrite ?exec_hide, ?exec_show;
    class_lookup; f_equal; apply set_eq; intros x; set_unfold;
    destruct (decide (x = "ng-hide"));
    destruct (decide (x = has_navbar (sc_side c))); tauto.
Qed.

(** X1. Whatever methods of a side controller have been called before,
    the state after a call is the one that call alone leaves on the
    state the sequence started from: the last method wins. *)
Theorem call_all_last_wins (c : SideCtrl) (methods : list Method)
    (method : Method) (s : State) :
  call_all c (methods ++ [method]) s = exec (call c method) s.
Proof.
  rewrite call_all_snoc. revert s.
  induction methods as [|m methods IH] using rev_ind; intros s; [done|].
  by rewrite call_all_snoc, call_absorb.
Qed.

(** Two states are equal when their elements have the same entries and
    the same classes, and the rest of the state agrees. *)
Lemma State_ext (s1 s2 : State) :
  dom (classes s1) = dom (classes s2) →
  (∀ k x, x ∈ classes_of s1 k ↔ x ∈ classes_of s2 k) →
  global s1 = global s2 → controllers s1 = controllers s2 →
  listeners s1 = listeners s2 →
  s1 = s2.
Proof.
  intros D C ???. apply State_eq; try done.
  apply map_eq; intros k.
  assert (Dk : k ∈ dom (classes s1) ↔ k ∈ dom (classes s2)) by (by rewrite D).
  rewrite !elem_of_dom in Dk.
  assert (Ck : classes_of s1 k = classes_of s2 k) by (apply set_eq, C).
  unfold classes_of in Ck.
  destruct (classes s1 !! k) as [X1|], (classes s2 !! k) as [X2|]; simpl in Ck.
  - by rewrite Ck.
  - destruct Dk as [Dk _]. by destruct Dk.
  - destruct Dk as [_ Dk]. by destruct Dk.
  - done.
Qed.

Lemma dom_call c method s :
  dom (classes (exec (call c method) s)) =
  {[sc_elem c; sc_root c]} ∪ dom (classes s).
Proof.
  rewrite call_hide_or_show.
  destruct (condition_after method); rewrite ?exec_hide, ?exec_show;
    cbn; rewrite !dom_insert_L;
    apply set_eq; intros y; set_unfold; tauto.
Qed.

Lemma elem_of_call c method s k x :
  x ∈ classes_of (exec (call c method) s) k ↔
  match condition_after method with
  | Hidden =>
      (k = sc_elem c ∧ x = "ng-hide") ∨
      (x ∈ classes_of s k ∧ ¬ (k = sc_root c ∧ x = has_navbar (sc_side c)))
  | _ =>
      (k = sc_root c ∧ x = has_navbar (sc_side c)) ∨
      (x ∈ classes_of s k ∧ ¬ (k = sc_elem c ∧ x = "ng-hide"))
  end.
Proof.
  rewrite call_hide_or_show.
  destruct (condition_after method); auto using elem_of_hide, elem_of_show.
Qed.

(** X2. Methods of two side controllers on different navbar elements and
    for different sides commute, whichever methods they are and whether
    or not one of the navbars is the root element. *)
Theorem call_commute (c c' : SideCtrl) (m m' : Method) (s : State) :
  sc_elem c ≠ sc_elem c' → sc_side c ≠ sc_side c' →
  exec (call c m) (exec (call c' m') s) = exec (call c' m') (exec (call c m) s).
Proof.
  intros He Hs.
  assert (Hn : has_navbar (sc_side c) ≠ has_navbar (sc_side c'))
    by (intros E; by apply Hs, has_navbar_inj).
  pose proof (ng_hide_not_has_navbar (sc_side c)) as N1.
  pose proof (ng_hide_not_has_navbar (sc_side c')) as N2.
  apply State_ext.
  - rewrite !dom_call. apply set_eq; intros y; set_unfold; tauto.
  - intros k x. rewrite !call_hide_or_show.
    destruct (condition_after m), (condition_after m');
      repeat rewrite ?elem_of_hide, ?elem_of_show;
      destruct (decide (x = "ng-hide")) as [E0|];
      destruct (decide (x = has_navbar (sc_side c))) as [E1|];
      destruct (decide (x = has_navbar (sc_side c'))) as [E2|];
      try congruence;
      destruct (decide (k = sc_elem c)) as [K1|];
      destruct (decide (k = sc_elem c')) as [K2|];
      try congruence; tauto.
  - by rewrite !call_global.
  - by rewrite !call_controllers.
  - by rewrite !call_listeners.
Qed.

Lemma call_commute_witness :
  exec (call Page.top_ctrl m_hide) (exec (call Page.bottom_ctrl m_show) Page.linked) =
  exec (call Page.bottom_ctrl m_show) (exec (call Page.top_ctrl m_hide) Page.linked).
Proof.
  apply (call_commute Page.top_ctrl Page.bottom_ctrl m_hide m_show Page.linked);
    vm_compute; discriminate.
Defined.

(** ** Linking a navbar *)

Lemma side_name_inj (side side' : Side) :
  side_name side = side_name side' → side = side'.
Proof. by destruct side, side'. Qed.

Lemma props_of_link side rootElement scope elem ctrl s this :
  props_of (exec (navbarAbsolute_link side rootElement scope elem ctrl) s) this =
  if decide (this = linked_global ctrl s)
  then <[side_name side := mkSideCtrl side elem rootElement]> (props_of s this)
  else props_of s this.
Proof.
  unfold props_of at 1. rewrite navbarAbsolute_link_controllers.
  case_decide as E.
  - subst this. by rewrite lookup_insert_eq.
  - by rewrite lookup_insert_ne.
Qed.

Lemma elem_of_link side rootElement scope elem ctrl s k x :
  x ∈ classes_of (exec (navbarAbsolute_link side rootElement scope elem ctrl) s) k ↔
  (k = rootElement ∧ x = has_navbar side) ∨ x ∈ classes_of s k.
Proof.
  unfold exec. rewrite navbarAbsolute_link_run.
  unfold classes_of at 1. simpl. rewrite lookup_insert.
  case_decide as E; simpl.
  - subst k. rewrite elem_of_union, elem_of_singleton. intuition congruence.
  - fold (classes_of s k). intuition congruence.
Qed.

(** X3. The link function of a navbar directive always returns.  It puts
    [has-navbar-<side>] on the root element and writes no other class of
    any element, the navbar's [ng-hide] included; it adds one [$destroy]
    listener to the scope.  So a navbar linked without [ng-hide] is shown,
    and one linked with [ng-hide] is neither shown nor hidden until a
    method is called. *)
Theorem navbarAbsolute_link_classes (side : Side)
    (rootElement scope elem ctrl : nat) (s : State) :
  let s' := exec (navbarAbsolute_link side rootElement scope elem ctrl) s in
  outcome (navbarAbsolute_link side rootElement scope elem ctrl) s = Ok tt ∧
  has_navbar side ∈ classes_of s' rootElement ∧
  (∀ e x, (e, x) ≠ (rootElement, has_navbar side) →
          x ∈ classes_of s' e ↔ x ∈ classes_of s e) ∧
  listeners s' = app (listeners s) [(scope, mkDestroyListener rootElement side)] ∧
  condition s' (mkSideCtrl side elem rootElement) =
    if hasClass s elem "ng-hide" then Neither else Visible.
Proof.
  intros s'. split_and!.
  - unfold outcome. by rewrite navbarAbsolute_link_run.
  - apply elem_of_link. by left.
  - intros e x N. unfold s'. rewrite elem_of_link.
    split; [intros [[-> ->]|H]; done|by right].
  - unfold s', exec. by rewrite navbarAbsolute_link_run.
  - unfold condition, hasClass; simpl. fold (has_navbar side).
    assert (H1 : "ng-hide" ∈ classes_of s' elem ↔ "ng-hide" ∈ classes_of s elem).
    { unfold s'. rewrite elem_of_link. split; [|by right].
      intros [[_ E]|H]; [|done]. by apply ng_hide_not_has_navbar in E. }
    assert (H2 : has_navbar side ∈ classes_of s' rootElement)
      by (apply elem_of_link; by left).
    rewrite (bool_decide_ext _ _ H1), (bool_decide_eq_true_2 _ H2).
    by case_bool_decide.
Qed.

(** X4. Linking a navbar stores its controller under the name of its
    side on the instance [global] refers to, in place of a controller
    stored there before; the controller of the other side and the
    properties of every other instance, the navbar's own controller
    included when it is not [global], stay as they are. *)
Theorem navbarAbsolute_link_registration (side : Side)
    (rootElement scope elem ctrl : nat) (s : State) :
  let s' := exec (navbarAbsolute_link side rootElement scope elem ctrl) s in
  let g := linked_global ctrl s in
  global s' = Some g ∧
  props_of s' g !! side_name side = Some (mkSideCtrl side elem rootElement) ∧
  (∀ side', side' ≠ side →
     props_of s' g !! side_name side' = props_of s g !! side_name side') ∧
  (∀ this, this ≠ g → props_of s' this = props_of s this).
Proof.
  intros s' g. split_and!.
  - apply navbarAbsolute_link_global.
  - apply navbarAbsolute_link_registers.
  - intros side' N. unfold s'. rewrite props_of_link, decide_True by done.
    apply lookup_insert_ne. intros E. by apply N, side_name_inj.
  - intros this N. unfold s'. by rewrite props_of_link, decide_False.
Qed.

(** ** What stays registered *)

Lemma step_props_of rootElement s ev this :
  is_navbar_link ev = false →
  props_of (step rootElement s ev) this = props_of s this.
Proof. intros N. unfold props_of. by rewrite step_controllers. Qed.

Lemma step_registrations_wf rootElement s ev :
  registrations_wf rootElement s →
  registrations_wf rootElement (step rootElement s ev).
Proof.
  intros W this name c H.
  destruct (is_navbar_link ev) eqn:N.
  - destruct ev as [side scope elem ctrl| |]; try done.
    unfold step, fire in *.
    rewrite navbarAbsolute_link_global.
    rewrite props_of_link in H. case_decide as E.
    + subst this. split; [done|].
      destruct (decide (name = side_name side)) as [->|Nn].
      * rewrite lookup_insert_eq in H. by injection H as <-.
      * rewrite lookup_insert_ne in H by done.
        by destruct (W _ _ _ H) as (_ & ? & ?).
    + destruct (W _ _ _ H) as (G & ? & ?).
      exfalso. apply E. unfold linked_global. by rewrite G.
  - rewrite step_props_of in H by done.
    destruct (W _ _ _ H) as (G & ? & ?).
    split; [|done]. by apply step_global_defined.
Qed.

Lemma step_some_registered rootElement s ev :
  (∀ g, global s = Some g → ∃ side, is_Some (props_of s g !! side_name side)) →
  ∀ g, global (step rootElement s ev) = Some g →
       ∃ side, is_Some (props_of (step rootElement s ev) g !! side_name side).
Proof.
  intros I g G.
  destruct (is_navbar_link ev) eqn:N.
  - destruct ev as [side scope elem ctrl| |]; try done.
    unfold step, fire in *.
    rewrite navbarAbsolute_link_global in G. injection G as <-.
    exists side. by rewrite navbarAbsolute_link_registers.
  - rewrite step_props_of by done.
    destruct (global s) as [g'|] eqn:G'.
    + rewrite (step_global_defined _ _ _ _ G') in G. injection G as <-. by apply I.
    + by rewrite step_global_undefined in G.
Qed.

(** X5. In every state a page can reach, what [registerController] has
    stored is well formed: only the instance [global] refers to holds
    side controllers, only under the names [top] and [bottom], each one a
    controller for the side it is named after and for the root element;
    and when [global] is defined at least one side is registered on it. *)
Theorem reachable_registrations (rootElement : nat) (s : State) :
  reachable rootElement s →
  registrations_wf rootElement s ∧
  (∀ g, global s = Some g → ∃ side, is_Some (props_of s g !! side_name side)).
Proof.
  induction 1 as [markup|s ev R [W I]].
  - split; [|done]. intros this name c H.
    unfold props_of in H. simpl in H. rewrite lookup_empty in H. simpl in H.
    by rewrite lookup_empty in H.
  - split; [by apply step_registrations_wf|by apply step_some_registered].
Qed.

Lemma reachable_registrations_witness :
  reachable Page.app Page.linked ∧ registrations_wf Page.app Page.linked.
Proof.
  assert (R : reachable Page.app Page.linked)
    by (apply reachable_step, reachable_step, reachable_init).
  split; [exact R|].
  exact (proj1 (reachable_registrations Page.app Page.linked R)).
Defined.

Lemma step_registered rootElement side s ev :
  registered side s → registered side (step rootElement s ev).
Proof.
  intros (g & c & G & H).
  destruct (is_navbar_link ev) eqn:N.
  - destruct ev as [side' scope elem ctrl| |]; try done.
    unfold step, fire, registered.
    rewrite navbarAbsolute_link_global.
    assert (linked_global ctrl s = g) as -> by (unfold linked_global; by rewrite G).
    destruct (decide (side' = side)) as [->|Ns].
    + eexists _, _. split; [done|].
      pose proof (navbarAbsolute_link_registers side rootElement scope elem ctrl s) as P.
      unfold linked_global in P. rewrite G in P. exact P.
    + exists g, c. split; [done|].
      rewrite props_of_link, decide_True by (unfold linked_global; by rewrite G).
      rewrite lookup_insert_ne; [done|]. intros E. by apply Ns, side_name_inj.
  - exists g, c. split; [by apply step_global_defined|by rewrite step_props_of].
Qed.

Lemma run_registered rootElement side evs s :
  registered side s → registered side (run rootElement evs s).
Proof.
  revert s. induction evs as [|ev evs IH]; intros s R; [done|].
  rewrite run_cons. by apply IH, step_registered.
Qed.

Lemma link_registered rootElement side scope elem ctrl s :
  registered side (step rootElement s (LinkNavbar side scope elem ctrl)).
Proof.
  unfold step, fire. eexists _, _. split.
  - apply navbarAbsolute_link_global.
  - apply navbarAbsolute_link_registers.
Qed.

Lemma nav_of_targets side : targets (nav_of side) = [side].
Proof. by destruct side. Qed.

Lemma toggle_link_single side method scope elem s g :
  global s = Some g →
  toggle_link (nav_of side) method scope elem s =
  invoke (props_of s g !! side_name side) method s.
Proof. destruct side; [apply toggle_link_Top|apply toggle_link_Bottom]. Qed.

(** X6. Registration is for good: once a navbar of a side has linked,
    whatever happens on the page next (further navbars, toggles, scopes
    destroyed, the navbar's own scope included), a navbar of that side
    stays registered and the link function of the four toggle directives
    of that side returns without an exception. *)
Theorem registered_for_good (rootElement : nat) (side : Side)
    (scope elem ctrl : nat) (evs : list Event) (s : State) :
  let s' := run rootElement (LinkNavbar side scope elem ctrl :: evs) s in
  registered side s' ∧
  ∀ method scope' elem',
    outcome (toggle_link (nav_of side) method scope' elem') s' = Ok tt.
Proof.
  intros s'.
  assert (R : registered side s')
    by (unfold s'; rewrite run_cons; apply run_registered, link_registered).
  split; [done|]. intros method scope' elem'.
  destruct R as (g & c & G & H).
  unfold outcome. by rewrite (toggle_link_single _ _ _ _ _ _ G), H, invoke_registered.
Qed.

(** X7. Once a top and a bottom navbar are registered, the link function
    of none of the twelve toggle directives throws, in any later state of
    the page. *)
Theorem all_toggles_return (rootElement : nat) (evs : list Event) (s : State)
    (nav : Nav) (method : Method) (scope elem : nat) :
  registered top s → registered bottom s →
  outcome (toggle_link nav method scope elem) (run rootElement evs s) = Ok tt.
Proof.
  intros Rt Rb.
  apply (run_registered rootElement _ evs) in Rt as (g & ct & G & Ht).
  apply (run_registered rootElement _ evs) in Rb as (g' & cb & G' & Hb).
  rewrite G in G'. injection G' as <-.
  unfold outcome. rewrite (toggle_link_dispatch _ _ _ _ _ _ G).
  apply dispatch_registered. intros [] _; simpl; eauto.
Qed.

Lemma all_toggles_return_witness :
  registered top Page.linked ∧ registered bottom Page.linked ∧
  outcome (toggle_link Both m_slidein 0 Page.body)
    (run Page.app [DestroyScope Page.scope_top; LinkToggle Top m_hide 0 Page.body]
       Page.linked) = Ok tt.
Proof.
  assert (Rt : registered top Page.linked)
    by (exists Page.ctrl_top, Page.top_ctrl; split; reflexivity).
  assert (Rb : registered bottom Page.linked)
    by (exists Page.ctrl_top, Page.bottom_ctrl; split; reflexivity).
  split_and!; [exact Rt|exact Rb|].
  exact (all_toggles_return Page.app
           [DestroyScope Page.scope_top; LinkToggle Top m_hide 0 Page.body]
           Page.linked Both m_slidein 0 Page.body Rt Rb).
Defined.

(** ** Toggling a linked navbar *)

Lemma step_keeps_controller rootElement side s ev g c :
  links_side side ev = false →
  global s = Some g → props_of s g !! side_name side = Some c →
  global (step rootElement s ev) = Some g ∧
  props_of (step rootElement s ev) g !! side_name side = Some c.
Proof.
  intros N G H. split; [by apply step_global_defined|].
  destruct (is_navbar_link ev) eqn:L.
  - destruct ev as [side' scope elem ctrl| |]; try done.
    simpl in N. apply bool_decide_eq_false in N.
    unfold step, fire.
    rewrite props_of_link, decide_True by (unfold linked_global; by rewrite G).
    rewrite lookup_insert_ne; [done|]. intros E. by apply N, side_name_inj.
  - by rewrite step_props_of.
Qed.

Lemma run_keeps_controller rootElement side evs s g c :
  Forall (λ ev, links_side side ev = false) evs →
  global s = Some g → props_of s g !! side_name side = Some c →
  global (run rootElement evs s) = Some g ∧
  props_of (run rootElement evs s) g !! side_name side = Some c.
Proof.
  intros F. revert s. induction F as [|ev evs N F IH]; intros s G H; [done|].
  rewrite run_cons.
  destruct (step_keeps_controller rootElement side s ev g c N G H) as [G' H'].
  by apply IH.
Qed.

(** X8. After a navbar of a side has linked, and whatever has happened
    since short of another navbar of that side linking (toggles, a navbar
    of the other side, scopes destroyed, the navbar's own included), the
    link function of a toggle directive of that side returns, its effect
    is the method of that navbar's controller, and it leaves that navbar
    shown (show, slidein) or hidden (hide, slideout). *)
Theorem toggle_after_link (rootElement : nat) (side : Side)
    (scope elem ctrl : nat) (evs : list Event)
    (method : Method) (scope' elem' : nat) (s : State) :
  Forall (λ ev, links_side side ev = false) evs →
  let c := mkSideCtrl side elem rootElement in
  let s1 := run rootElement (LinkNavbar side scope elem ctrl :: evs) s in
  toggle_link (nav_of side) method scope' elem' s1 = (Ok tt, exec (call c method) s1) ∧
  condition (exec (toggle_link (nav_of side) method scope' elem') s1) c =
    condition_after method.
Proof.
  intros F c s1.
  destruct (run_keeps_controller rootElement side evs
              (step rootElement s (LinkNavbar side scope elem ctrl))
              (linked_global ctrl s) c F) as [G H].
  { apply navbarAbsolute_link_global. }
  { apply navbarAbsolute_link_registers. }
  fold (run rootElement (LinkNavbar side scope elem ctrl :: evs) s) in G, H.
  fold s1 in G, H.
  assert (E : toggle_link (nav_of side) method scope' elem' s1 =
              (Ok tt, exec (call c method) s1))
    by (by rewrite (toggle_link_single _ _ _ _ _ _ G), H, invoke_registered).
  split; [done|]. unfold exec at 1. rewrite E. apply condition_call.
Qed.

Lemma toggle_after_link_witness :
  let evs := [LinkNavbar bottom Page.scope_bottom Page.navbar_bottom Page.ctrl_bottom;
              DestroyScope Page.scope_top;
              LinkToggle Both m_hide 0 Page.body] in
  let s1 := run Page.app
              (LinkNavbar top Page.scope_top Page.navbar_top Page.ctrl_top :: evs)
              (init Page.markup) in
  Forall (λ ev, links_side top ev = false) evs ∧
  condition (exec (toggle_link Top m_slidein 0 Page.body) s1) Page.top_ctrl = Visible.
Proof.
  intros evs s1.
  assert (F : Forall (λ ev, links_side top ev = false) evs) by (repeat constructor).
  split; [exact F|].
  exact (proj2 (toggle_after_link Page.app top Page.scope_top Page.navbar_top
                  Page.ctrl_top evs m_slidein 0 Page.body (init Page.markup) F)).
Defined.

(** The method that another side controller runs leaves a navbar in the
    condition that same method had put it in. *)
Lemma condition_call_same c c' method s :
  condition s c = condition_after method →
  condition (exec (call c' method) s) c = condition_after method.
Proof.
  pose proof (ng_hide_not_has_navbar (sc_side c)) as N1.
  pose proof (ng_hide_not_has_navbar (sc_side c')) as N2.
  rewrite call_hide_or_show.
  destruct (condition_after method) eqn:A.
  - rewrite !condition_Visible, !elem_of_show. intros [H1 H2]. split.
    + intros [[_ E]|[H _]]; [by apply N2|by apply H1].
    + right. split; [done|]. intros [_ E]. by apply N1.
  - rewrite !condition_Hidden, !elem_of_hide. intros [H1 H2]. split.
    + right. split; [done|]. intros [_ E]. by apply N2.
    + intros [[_ E]|[H _]]; [by apply N1|by apply H2].
  - by destruct method.
Qed.

(** X9. With both navbars registered, the link function of a Both
    directive returns and leaves both navbars shown (show, slidein) or
    both hidden (hide, slideout), also when the two navbars share an
    element. *)
Theorem toggle_both_conditions (g : nat) (ct cb : SideCtrl) (method : Method)
    (scope elem : nat) (s : State) :
  both_registered g ct cb s →
  let s' := exec (toggle_link Both method scope elem) s in
  outcome (toggle_link Both method scope elem) s = Ok tt ∧
  condition s' ct = condition_after method ∧
  condition s' cb = condition_after method.
Proof.
  intros R s'. pose proof R as (G & Ht & Hb).
  assert (E : toggle_link Both method scope elem s =
              (Ok tt, exec (call ct method) (exec (call cb method) s))).
  { rewrite (toggle_link_Both _ _ _ _ _ G), Ht, Hb.
    unfold mbind, M_bind. by rewrite !invoke_registered. }
  unfold s', outcome, exec. rewrite E. simpl. split_and!; [done|..].
  - apply condition_call.
  - apply condition_call_same, condition_call.
Qed.

Lemma toggle_both_conditions_witness :
  both_registered Page.ctrl_top Page.top_ctrl Page.bottom_ctrl Page.linked ∧
  condition (exec (toggle_link Both m_slideout 0 Page.body) Page.linked) Page.bottom_ctrl
    = Hidden.
Proof.
  assert (R : both_registered Page.ctrl_top Page.top_ctrl Page.bottom_ctrl Page.linked)
    by (split_and!; reflexivity).
  split; [exact R|].
  exact (proj2 (proj2 (toggle_both_conditions Page.ctrl_top Page.top_ctrl
                         Page.bottom_ctrl m_slideout 0 Page.body Page.linked R))).
Defined.

(** ** When a toggle directive throws *)

Lemma dispatch_throws g sides method s :
  ¬ Forall (λ side, is_Some (props_of s g !! side_name side)) sides →
  outcome (dispatch g sides method) s = Throw (TypeError (method_name method)).
Proof.
  revert s. induction sides as [|side sides IH]; intros s N.
  - destruct N. constructor.
  - unfold outcome. simpl dispatch. unfold mbind, M_bind, get_prop, gets.
    destruct (props_of s g !! side_name side) as [c|] eqn:H; [|done].
    rewrite invoke_registered. apply IH. intros F. apply N.
    constructor; [by rewrite H|].
    eapply Forall_impl; [exact F|]. intros side'. by rewrite call_props.
Qed.

(** X10. With [global] defined, the link function of a toggle directive
    returns exactly when every navbar it addresses is registered, and
    otherwise throws the TypeError of reading the method of [undefined].
    What it wrote before stays: a Top or Bottom directive then leaves the
    state as it was; a Both directive leaves it as it was when the bottom
    navbar is missing, and has run the method of the bottom controller
    when only the top navbar is missing. *)
Theorem toggle_link_outcome (nav : Nav) (method : Method) (scope elem : nat)
    (s : State) (g : nat) :
  global s = Some g →
  outcome (toggle_link nav method scope elem) s =
    (if bool_decide (Forall (λ side, is_Some (props_of s g !! side_name side))
                       (targets nav))
     then Ok tt else Throw (TypeError (method_name method))) ∧
  (∀ side, props_of s g !! side_name side = None →
     exec (toggle_link (nav_of side) method scope elem) s = s) ∧
  (props_of s g !! "bottom" = None →
     exec (toggle_link Both method scope elem) s = s) ∧
  (∀ cb, props_of s g !! "bottom" = Some cb → props_of s g !! "top" = None →
     exec (toggle_link Both method scope elem) s = exec (call cb method) s).
Proof.
  intros G. split_and!.
  - unfold outcome. rewrite (toggle_link_dispatch _ _ _ _ _ _ G).
    case_bool_decide as F.
    + apply dispatch_registered. intros side Hin.
      by apply (proj1 (Forall_forall _ _) F).
    + by apply dispatch_throws.
  - intros side H. unfold exec. by rewrite (toggle_link_single _ _ _ _ _ _ G), H.
  - intros H. unfold exec. rewrite (toggle_link_Both _ _ _ _ _ G), H. done.
  - intros cb Hb Ht. unfold exec at 1.
    rewrite (toggle_link_Both _ _ _ _ _ G), Hb, Ht.
    unfold mbind, M_bind. by rewrite invoke_registered.
Qed.

Lemma toggle_link_outcome_witness :
  global Page.bottom_linked = Some Page.ctrl_bottom ∧
  outcome (toggle_link Both m_show 0 Page.body) Page.bottom_linked =
    Throw (TypeError "show") ∧
  outcome (toggle_link Bottom m_show 0 Page.body) Page.bottom_linked = Ok tt.
Proof.
  assert (G : global Page.bottom_linked = Some Page.ctrl_bottom) by reflexivity.
  split; [exact G|]. split.
  - rewrite (proj1 (toggle_link_outcome Both m_show 0 Page.body
                      Page.bottom_linked Page.ctrl_bottom G)).
    reflexivity.
  - rewrite (proj1 (toggle_link_outcome Bottom m_show 0 Page.body
                      Page.bottom_linked Page.ctrl_bottom G)).
    reflexivity.
Defined.

(** ** The animated directives *)

Lemma dispatch_same_condition g sides m m' s :
  condition_after m = condition_after m' →
  exec (dispatch g sides m) s = exec (dispatch g sides m') s ∧
  (outcome (dispatch g sides m) s = Ok tt ↔ outcome (dispatch g sides m') s = Ok tt).
Proof.
  intros A. revert s. induction sides as [|side sides IH]; intros s; [done|].
  unfold exec, outcome. simpl dispatch. unfold mbind, M_bind, get_prop, gets.
  destruct (props_of s g !! side_name side) as [c|]; [|done].
  rewrite !invoke_registered.
  assert (exec (call c m) s = exec (call c m') s) as ->
    by (by rewrite !call_hide_or_show, A).
  apply IH.
Qed.

(** X11. For every nav, the link function of the slidein directive
    leaves the state that of the show directive leaves and returns when
    that one returns, and likewise slideout and hide, on every state,
    failures included. *)
Theorem toggle_link_slide_is_plain (nav : Nav) (scope elem : nat) (s : State) :
  (exec (toggle_link nav m_slidein scope elem) s =
     exec (toggle_link nav m_show scope elem) s ∧
   (outcome (toggle_link nav m_slidein scope elem) s = Ok tt ↔
    outcome (toggle_link nav m_show scope elem) s = Ok tt)) ∧
  (exec (toggle_link nav m_slideout scope elem) s =
     exec (toggle_link nav m_hide scope elem) s ∧
   (outcome (toggle_link nav m_slideout scope elem) s = Ok tt ↔
    outcome (toggle_link nav m_hide scope elem) s = Ok tt)).
Proof.
  destruct (global s) as [g|] eqn:G.
  - unfold exec, outcome. rewrite !(toggle_link_dispatch _ _ _ _ _ _ G).
    split; by apply dispatch_same_condition.
  - unfold exec, outcome. by rewrite !toggle_link_undefined.
Qed.

(** ** The classes the module leaves alone *)

Lemma has_navbar_module_class side : has_navbar side ∈ module_classes.
Proof. unfold module_classes. destruct side; set_unfold; tauto. Qed.

Lemma ng_hide_module_class : "ng-hide" ∈ module_classes.
Proof. unfold module_classes. set_unfold; tauto. Qed.

Lemma not_module_class x side :
  x ∉ module_classes → x ≠ "ng-hide" ∧ x ≠ has_navbar side.
Proof.
  intros N. split; intros ->; apply N;
    [apply ng_hide_module_class|apply has_navbar_module_class].
Qed.

Lemma invoke_other_classes o method s k x :
  x ∉ module_classes →
  x ∈ classes_of (exec (invoke o method) s) k ↔ x ∈ classes_of s k.
Proof.
  intros N. destruct o as [c|]; [|done].
  destruct (not_module_class x (sc_side c) N) as [N1 N2].
  apply call_frame; congruence.
Qed.

Lemma dispatch_other_classes g sides method s k x :
  x ∉ module_classes →
  x ∈ classes_of (exec (dispatch g sides method) s) k ↔ x ∈ classes_of s k.
Proof.
  intros N. revert s. induction sides as [|side sides IH]; intros s; [done|].
  pose proof (invoke_other_classes (props_of s g !! side_name side) method s k x N) as I.
  unfold exec in *. simpl dispatch. unfold mbind, M_bind, get_prop, gets.
  destruct (invoke _ _ s) as [[[]|e] s1]; simpl in *; [|done].
  by rewrite IH.
Qed.

Lemma elem_of_run_listeners scope ls s k x :
  x ∈ classes_of (exec (run_listeners scope ls) s) k ↔
  x ∈ classes_of s k ∧
  ¬ ∃ l, (scope, l) ∈ ls ∧ k = dl_root l ∧ x = has_navbar (dl_side l).
Proof.
  revert s. induction ls as [|[sc l] ls IH]; intros s.
  - split; [|tauto]. intros H. split; [done|]. intros (l & Hin & _). by inv Hin.
  - assert (exec (run_listeners scope ((sc, l) :: ls)) s =
            exec (run_listeners scope ls)
              (if decide (sc = scope) then exec (run_listener l) s else s)) as ->.
    { unfold exec at 1 2. by rewrite run_listeners_cons. }
    rewrite IH. case_decide as E.
    + subst sc. unfold run_listener. fold (has_navbar (dl_side l)).
      rewrite elem_of_removeClass. split.
      * intros [[H N1] N2]. split; [done|]. intros (l' & Hin & K & X).
        apply elem_of_cons in Hin as [[= <-]|Hin]; [by apply N1|].
        apply N2. eauto.
      * intros [H N]. split_and!; [done|..].
        -- intros [K X]. apply N. exists l. split; [by left|done].
        -- intros (l' & Hin & K & X). apply N. exists l'. split; [by right|done].
    + split.
      * intros [H N]. split; [done|]. intros (l' & Hin & K & X).
        apply elem_of_cons in Hin as [[= <- <-]|Hin]; [done|]. apply N. eauto.
      * intros [H N]. split; [done|]. intros (l' & Hin & K & X).
        apply N. exists l'. split; [by right|done].
Qed.

Lemma elem_of_destroy scope s k x :
  x ∈ classes_of (exec (destroy scope) s) k ↔
  x ∈ classes_of s k ∧
  ¬ ∃ l, (scope, l) ∈ listeners s ∧ k = dl_root l ∧ x = has_navbar (dl_side l).
Proof.
  unfold exec at 1. rewrite destroy_run. simpl.
  apply elem_of_run_listeners.
Qed.

Lemma step_other_classes rootElement s ev k x :
  x ∉ module_classes →
  x ∈ classes_of (step rootElement s ev) k ↔ x ∈ classes_of s k.
Proof.
  intros N. destruct ev as [side scope elem ctrl|nav method scope elem|scope];
    unfold step, fire.
  - rewrite elem_of_link. destruct (not_module_class x side N) as [_ N2].
    split; [intros [[_ E]|H]; done|by right].
  - destruct (global s) as [g|] eqn:G.
    + unfold exec. rewrite (toggle_link_dispatch _ _ _ _ _ _ G).
      by apply dispatch_other_classes.
    + unfold exec. by rewrite toggle_link_undefined.
  - rewrite elem_of_destroy. split; [by intros [H _]|].
    intros H. split; [done|]. intros (l & _ & _ & X).
    by destruct (not_module_class x (dl_side l) N) as [_ N2].
Qed.

(** X12. Whatever happens on the page, the module writes no class other
    than [ng-hide], [has-navbar-top] and [has-navbar-bottom]: every other
    class is on an element after the events exactly when it was before. *)
Theorem run_other_classes (rootElement : nat) (evs : list Event) (s : State)
    (k : nat) (x : string) :
  x ∉ module_classes →
  x ∈ classes_of (run rootElement evs s) k ↔ x ∈ classes_of s k.
Proof.
  intros N. revert s. induction evs as [|ev evs IH]; intros s; [done|].
  by rewrite run_cons, IH, step_other_classes.
Qed.

Lemma run_other_classes_witness :
  ("navbar-app" ∉ module_classes) ∧
  "navbar-app" ∈ classes_of
    (run Page.app [LinkToggle Both m_hide 0 Page.body; DestroyScope Page.scope_top]
       Page.linked) Page.navbar_top.
Proof.
  assert (N : "navbar-app" ∉ module_classes).
  { unfold module_classes. rewrite !elem_of_union, !elem_of_singleton.
    intuition discriminate. }
  split; [exact N|].
  apply (run_other_classes Page.app
           [LinkToggle Both m_hide 0 Page.body; DestroyScope Page.scope_top]
           Page.linked Page.navbar_top "navbar-app" N).
  apply (bool_decide_unpack ("navbar-app" ∈ classes_of Page.linked Page.navbar_top)).
  vm_compute. exact I.
Defined.

(** X13. When the [$destroy] event reaches a scope, each listener the
    navbar directives have put on it takes [has-navbar-<side>] off its
    root element, and nothing else is written: a class is on an element
    afterwards exactly when it was before and no listener of the scope
    removes it.  [global] and the registered controllers stay, so the
    controller of a destroyed navbar remains the one the toggle
    directives call. *)
Theorem destroy_classes (scope : nat) (s : State) :
  let s' := exec (destroy scope) s in
  outcome (destroy scope) s = Ok tt ∧
  (∀ k x, x ∈ classes_of s' k ↔
          x ∈ classes_of s k ∧
          ¬ ∃ l, (scope, l) ∈ listeners s ∧ k = dl_root l ∧
                 x = has_navbar (dl_side l)) ∧
  global s' = global s ∧
  controllers s' = controllers s.
Proof.
  intros s'. split_and!.
  - unfold outcome. by rewrite destroy_run.
  - apply elem_of_destroy.
  - apply destroy_global.
  - apply destroy_controllers.
Qed.

(** ** What a toggle directive leaves alone *)

Lemma invoke_listeners o method s :
  listeners (exec (invoke o method) s) = listeners s.
Proof. destruct o as [c|]; [apply call_listeners|done]. Qed.

Lemma dispatch_listeners g sides method s :
  listeners (exec (dispatch g sides method) s) = listeners s.
Proof.
  revert s. induction sides as [|side sides IH]; intros s; [done|].
  pose proof (invoke_listeners (props_of s g !! side_name side) method s) as I.
  unfold exec in *. simpl dispatch. unfold mbind, M_bind, get_prop, gets.
  destruct (invoke _ _ s) as [[[]|e] s1]; simpl in *; [|done].
  by rewrite IH.
Qed.

(** X14. The link function of a toggle directive, whether it returns or
    throws, leaves [global], the registered controllers and the
    [$destroy] listeners as they are, and an element that is neither the
    navbar element nor the root element of a registered controller keeps
    all its classes. *)
Theorem toggle_link_leaves (nav : Nav) (method : Method) (scope elem : nat)
    (s : State) :
  let s' := exec (toggle_link nav method scope elem) s in
  global s' = global s ∧
  controllers s' = controllers s ∧
  listeners s' = listeners s ∧
  ∀ k, (∀ this name c, props_of s this !! name = Some c →
                       k ≠ sc_elem c ∧ k ≠ sc_root c) →
       classes_of s' k = classes_of s k.
Proof.
  intros s'. destruct (toggle_link_frame nav method scope elem s) as [F1 F2].
  split_and!; [done|done|..].
  - unfold s'. destruct (global s) as [g|] eqn:G.
    + unfold exec. rewrite (toggle_link_dispatch _ _ _ _ _ _ G).
      apply dispatch_listeners.
    + unfold exec. by rewrite toggle_link_undefined.
  - intros k Hk. unfold s'. destruct (global s) as [g|] eqn:G.
    + unfold exec. rewrite (toggle_link_dispatch _ _ _ _ _ _ G).
      clear F1 F2 s'. generalize (targets nav) as sides.
      intros sides. revert s G Hk.
      induction sides as [|side sides IH]; intros s G Hk; [done|].
      simpl dispatch. unfold mbind, M_bind, get_prop, gets.
      destruct (props_of s g !! side_name side) as [c|] eqn:H; [|done].
      rewrite invoke_registered.
      destruct (Hk _ _ _ H) as [K1 K2].
      assert (E : classes_of (exec (call c method) s) k = classes_of s k).
      { apply set_eq. intros x. apply call_frame; congruence. }
      rewrite <- E. apply IH.
      * by rewrite call_global.
      * intros this name c'. rewrite call_props. apply Hk.
    + unfold exec. by rewrite toggle_link_undefined.
Qed.
